(** * apistar-websocket: the WebSocket handle and its auto-connect hook

    A shallow embedding of [apistar_websocket/websocket.py]: the close-status
    table, the two exception classes, the [WebSocket] wrapper over the ASGI
    send/receive channels and [WebSocketAutoHook]. *)

From Stdlib Require Import ZArith NArith Ascii String List Strings.Byte.
From stdpp Require Import base option gmap strings list pretty.

Local Open Scope string_scope.
Local Open Scope Z_scope.

(** ** Python values *)

(** The scalar objects an ASGI message, a payload or a status code is made of.
    [VStr] is a [str], [VBytes] a [bytes] object. *)
Inductive value : Type :=
  | VNone
  | VBool (b : bool)
  | VInt (z : Z)
  | VStr (s : string)
  | VBytes (b : list byte).

(** A message or a scope: a [dict] with [str] keys. *)
Abbreviation dict := (gmap string value).

(** Truth value of an object, as tested by [if data:]. *)
Definition py_truthy (v : value) : bool :=
  match v with
  | VNone => false
  | VBool b => b
  | VInt z => negb (z =? 0)
  | VStr s => negb (bool_decide (s = EmptyString))
  | VBytes b => negb (bool_decide (b = []))
  end.

(** [v == s] for a [str] literal [s]: of the objects above only an equal
    [str] compares equal to a [str]. *)
Definition py_eq_str (v : value) (s : string) : bool :=
  match v with
  | VStr s' => bool_decide (s' = s)
  | _ => false
  end.

(** [d.get(k)]: the value under [k], [None] when the key is missing. *)
Definition dict_get (d : dict) (k : string) : value := default VNone (d !! k).

(** [d.get(k, dflt)]. *)
Definition dict_get_default (d : dict) (k : string) (dflt : value) : value :=
  default dflt (d !! k).

(** [d.update(e)]: the entries of [e] win over those of [d]. *)
Definition dict_update (d e : dict) : dict := e ∪ d.

(** *** [str()] of a value, as used by ['%s' % v] *)

Definition hexdigit (n : N) : ascii :=
  match n with
  | 0 => "0" | 1 => "1" | 2 => "2" | 3 => "3" | 4 => "4" | 5 => "5"
  | 6 => "6" | 7 => "7" | 8 => "8" | 9 => "9" | 10 => "a" | 11 => "b"
  | 12 => "c" | 13 => "d" | 14 => "e" | _ => "f"
  end%N%char.

Definition backslash : ascii := ascii_of_byte x5c.
Definition squote : ascii := ascii_of_byte x27.
Definition dquote : ascii := ascii_of_byte x22.

(** One byte of the [repr] of a [bytes] object, [q] being the quote in use. *)
Definition bytes_repr_byte (q : ascii) (c : byte) : string :=
  let a := ascii_of_byte c in
  let n := Byte.to_N c in
  if bool_decide (a = q) || bool_decide (a = backslash) then
    String backslash (String a EmptyString)
  else if (n =? 9)%N then String backslash "t"
  else if (n =? 10)%N then String backslash "n"
  else if (n =? 13)%N then String backslash "r"
  else if (n <? 32)%N || (127 <=? n)%N then
    String backslash
      (String "x" (String (hexdigit (n / 16)) (String (hexdigit (n mod 16)) EmptyString)))
  else String a EmptyString.

(** [repr] of a [bytes] object: single quotes, unless the bytes hold a single
    quote and no double quote. *)
Definition bytes_repr (b : list byte) : string :=
  let has c := existsb (fun x => bool_decide (ascii_of_byte x = c)) b in
  let q := if has squote && negb (has dquote) then dquote else squote in
  String "b" (String q
    (fold_right (fun c acc => bytes_repr_byte q c ++ acc) (String q EmptyString) b)).

Definition py_str (v : value) : string :=
  match v with
  | VNone => "None"
  | VBool true => "True"
  | VBool false => "False"
  | VInt z => pretty z
  | VStr s => s
  | VBytes b => bytes_repr b
  end.

(** ** Close-status codes *)

Module Status.
Inductive t : Type :=
  | OK
  | LEAVING
  | PROT_ERROR
  | UNSUPPORTED_TYPE
  | RESERVED_1004
  | NO_STATUS
  | CLOSED_ABNORMAL
  | INALID_DATA
  | POLICY_VIOLATION
  | TOO_BIG
  | TLS_FAIL.

Definition value (s : t) : Z :=
  match s with
  | OK => 1000
  | LEAVING => 1001
  | PROT_ERROR => 1002
  | UNSUPPORTED_TYPE => 1003
  | RESERVED_1004 => 1004
  | NO_STATUS => 1005
  | CLOSED_ABNORMAL => 1006
  | INALID_DATA => 1007
  | POLICY_VIOLATION => 1008
  | TOO_BIG => 1009
  | TLS_FAIL => 1010
  end.
End Status.

(** ** Exceptions *)

(** What apistar's [HTTPException.__init__(detail, status_code)] keeps of its
    two arguments: the attributes [detail] and [status_code]. *)
Record HTTPException : Type := HTTPException_init {
  detail : string;
  status_code : Z
}.

Inductive exn : Type :=
  | ExcWebSocketClosed (e : HTTPException)
  | ExcWebSocketProtocolError (e : HTTPException)
  | ExcKeyError (key : string)
  | ExcAttributeError.

(** [WebSocketClosed(detail, status_code)]; an argument left out is [None]
    here and takes the default of the signature. *)
Definition WebSocketClosed (detail : option string) (status_code : option Z) : exn :=
  let detail := default "WebSocket has closed" detail in
  let status_code := default (Status.value Status.OK) status_code in
  ExcWebSocketClosed (HTTPException_init detail 200).

(** [WebSocketProtocolError(detail, status_code)]. *)
Definition WebSocketProtocolError (detail : option string) (status_code : option Z) : exn :=
  let detail := default "WebSocket protocol error" detail in
  let status_code := default (Status.value Status.PROT_ERROR) status_code in
  ExcWebSocketProtocolError (HTTPException_init detail status_code).

(** ** The server side of a connection *)

(** [websockets.protocol.State]. *)
Module State.
Inductive t : Type :=
  | CONNECTING
  | OPEN
  | CLOSING
  | CLOSED.
End State.

(** The server's connection object, the [__self__] of the bound method
    [asgi_send].  It has a [state] attribute, or a [protocol] one with a
    [state] of its own; [None] stands for a missing attribute. *)
Record WebSocketRequest : Type := {
  req_state : option State.t;
  req_protocol_state : option State.t
}.

(** apistar's [Response], of which the hook reads [content].  The class
    defines neither [__bool__] nor [__len__]: a response object is true. *)
Record Response : Type := {
  content : value
}.

(** A method call on the handle, with its arguments after defaults. *)
Inductive call : Type :=
  | CallSend (data : value) (kwargs : dict)
  | CallReceive
  | CallConnect
  | CallClose (code data : value).

(** The world a handle acts on: the messages the server still has for
    [asgi_receive], those handed to [asgi_send] so far, the connection object
    ([None] when [asgi_send] has no [__self__]) and the history of the method
    calls made on the handle. *)
Record world : Type := {
  inbound : list dict;
  outbound : list dict;
  ws_request : option WebSocketRequest;
  calls : list call
}.

(** ** Coroutines: state, exceptions and waiting *)

(** A coroutine returns a value, raises, or stays suspended on an [await]
    that is never resumed ([Blocked]). *)
Inductive result (A : Type) : Type :=
  | Return (a : A) (w : world)
  | Raise (e : exn) (w : world)
  | Blocked.
Arguments Return {A} a w.
Arguments Raise {A} e w.
Arguments Blocked {A}.

Definition M (A : Type) : Type := world -> result A.

Definition ret {A : Type} (a : A) : M A := fun w => Return a w.

Definition raise {A : Type} (e : exn) : M A := fun w => Raise e w.

Definition bind {A B : Type} (m : M A) (k : A -> M B) : M B :=
  fun w =>
    match m w with
    | Return a w' => k a w'
    | Raise e w' => Raise e w'
    | Blocked => Blocked
    end.

Notation "x <~ m ;; k" := (bind m (fun x => k))
  (at level 100, m at next level, k at level 200, right associativity).
Notation "m ;;; k" := (bind m (fun _ => k))
  (at level 100, k at level 200, right associativity).

(** [d[k]]: [KeyError] on a missing key. *)
Definition dict_item (d : dict) (k : string) : M value :=
  match d !! k with
  | Some v => ret v
  | None => raise (ExcKeyError k)
  end.

Definition isinstance_str (v : value) : bool :=
  match v with VStr _ => true | _ => false end.

Definition isinstance_bytes (v : value) : bool :=
  match v with VBytes _ => true | _ => false end.

Definition record_call (c : call) : M unit :=
  fun w =>
    Return tt {| inbound := inbound w; outbound := outbound w;
                 ws_request := ws_request w; calls := calls w ++ [c] |}.

(** The message [send] builds before it hands it over: [msg] of the source,
    from the literal to the last assignment. *)
Definition send_message (data : value) (kwargs : dict) : dict :=
  let msg : dict := {[ "type" := VStr "websocket.send" ]} in
  let msg := dict_update msg kwargs in
  if py_truthy data then
    if isinstance_str data then <[ "text" := data ]> msg
    else if isinstance_bytes data then <[ "bytes" := data ]> msg
    else msg
  else msg.

(** The message [close] builds: [message] of the source. *)
Definition close_message (code data : value) : dict :=
  let message : dict :=
    <[ "type" := VStr "websocket.disconnect" ]> (<[ "code" := code ]> ∅) in
  if py_truthy data then
    if isinstance_str data then <[ "text" := data ]> message
    else if isinstance_bytes data then <[ "bytes" := data ]> message
    else message
  else message.

(** ** The WebSocket handle *)

Record WebSocket : Type := {
  scope : dict
}.

Section Adapter.

(** How the connection object changes when the server is handed an outbound
    message; the server's business, any function will do. *)
Variable respond : WebSocketRequest -> dict -> WebSocketRequest.

(** [await asgi_receive()]: the next inbound message; with none left the
    coroutine waits. *)
Definition asgi_receive : M dict :=
  fun w =>
    match inbound w with
    | [] => Blocked
    | msg :: rest =>
        Return msg {| inbound := rest; outbound := outbound w;
                      ws_request := ws_request w; calls := calls w |}
    end.

(** [await asgi_send(msg)]: the message is handed to the server. *)
Definition asgi_send (msg : dict) : M value :=
  fun w =>
    Return VNone {| inbound := inbound w; outbound := outbound w ++ [msg];
                    ws_request := (fun r => respond r msg) <$> ws_request w;
                    calls := calls w |}.

(** The [state] property: the [state] of the connection object when it has
    one, else that of its [protocol]; [AttributeError] when there is no
    connection object or the attribute looked up is missing. *)
Definition state (self : WebSocket) : M State.t :=
  fun w =>
    match ws_request w with
    | None => Raise ExcAttributeError w
    | Some r =>
        match req_state r with
        | Some s => Return s w
        | None =>
            match req_protocol_state r with
            | Some s => Return s w
            | None => Raise ExcAttributeError w
            end
        end
    end.

(** The [is_open] property. *)
Definition is_open (self : WebSocket) : M bool :=
  s <~ state self ;;
  ret (match s with State.OPEN => true | _ => false end).

Definition send (self : WebSocket) (data : option value) (kwargs : dict) : M value :=
  let data := default VNone data in
  record_call (CallSend data kwargs) ;;;
  asgi_send (send_message data kwargs).

Definition receive (self : WebSocket) : M value :=
  record_call CallReceive ;;;
  msg <~ asgi_receive ;;
  ret (dict_get_default msg "text" (dict_get msg "bytes")).

Definition connect (self : WebSocket) : M value :=
  record_call CallConnect ;;;
  msg <~ asgi_receive ;;
  t <~ dict_item msg "type" ;;
  if negb (py_eq_str t "websocket.connect") then
    t' <~ dict_item msg "type" ;;
    raise (WebSocketProtocolError
             (Some ("Expected websocket connection but got: " ++ py_str t')) None)
  else
    asgi_send {[ "type" := VStr "websocket.accept" ]} ;;;
    ret VNone.

Definition close (self : WebSocket) (code data : option value) : M value :=
  let code := default (VInt (Status.value Status.OK)) code in
  let data := default VNone data in
  record_call (CallClose code data) ;;;
  asgi_send (close_message code data) ;;;
  ret VNone.

(** ** WebSocketAutoHook *)

Definition on_request (ws : WebSocket) : M value :=
  if py_eq_str (dict_get (scope ws) "type") "websocket" then
    connect ws ;;; ret VNone
  else ret VNone.

Definition on_response (ws : WebSocket) (response : option Response) (scope : dict)
  : M value :=
  if py_eq_str (dict_get scope "type") "websocket" then
    open <~ is_open ws ;;
    if open then
      close ws None (Some (match response with
                           | Some r => content r
                           | None => VNone
                           end)) ;;;
      ret VNone
    else ret VNone
  else ret VNone.

Definition on_error (ws : WebSocket) (response : option Response) (scope : dict)
  : M value :=
  if py_eq_str (dict_get scope "type") "websocket" then
    open <~ is_open ws ;;
    if open then
      close ws None (Some (match response with
                           | Some r => content r
                           | None => VNone
                           end)) ;;;
      ret VNone
    else ret VNone
  else ret VNone.

(** [WebSocketComponent.resolve]. *)
Definition resolve (scope : dict) : WebSocket := {| scope := scope |}.

End Adapter.

(** ** Fixtures *)

(** A server that opens the connection on an accept message and closes it on
    a disconnect message. *)
Definition test_respond (r : WebSocketRequest) (msg : dict) : WebSocketRequest :=
  if py_eq_str (dict_get msg "type") "websocket.accept" then
    {| req_state := Some State.OPEN; req_protocol_state := None |}
  else if py_eq_str (dict_get msg "type") "websocket.disconnect" then
    {| req_state := Some State.CLOSED; req_protocol_state := None |}
  else r.

Definition connect_frame : dict := {[ "type" := VStr "websocket.connect" ]}.

Definition hi_frame : dict :=
  <[ "text" := VStr "hi" ]> {[ "type" := VStr "websocket.send" ]}.

Definition x_frame : dict :=
  <[ "text" := VStr "x" ]> {[ "type" := VStr "websocket.send" ]}.

Definition websocket_scope : dict := {[ "type" := VStr "websocket" ]}.

Definition http_scope : dict := {[ "type" := VStr "http" ]}.

(** A connection the server has not accepted yet, with [frames] waiting. *)
Definition pending_world (frames : list dict) : world :=
  {| inbound := frames; outbound := [];
     ws_request := Some {| req_state := Some State.CONNECTING;
                           req_protocol_state := None |};
     calls := [] |}.

(** An accepted connection. *)
Definition open_world (frames : list dict) : world :=
  {| inbound := frames; outbound := [];
     ws_request := Some {| req_state := Some State.OPEN;
                           req_protocol_state := None |};
     calls := [] |}.

(** A connection the server has closed. *)
Definition closed_world (frames : list dict) : world :=
  {| inbound := frames; outbound := [];
     ws_request := Some {| req_state := Some State.CLOSED;
                           req_protocol_state := None |};
     calls := [] |}.

(** A server whose connection object has no [state] of its own and keeps it
    in [protocol]: open on an accept message, closed on a disconnect
    message. *)
Definition test_respond_protocol (r : WebSocketRequest) (msg : dict)
  : WebSocketRequest :=
  if py_eq_str (dict_get msg "type") "websocket.accept" then
    {| req_state := None; req_protocol_state := Some State.OPEN |}
  else if py_eq_str (dict_get msg "type") "websocket.disconnect" then
    {| req_state := None; req_protocol_state := Some State.CLOSED |}
  else r.

(** A connection of such a server, not accepted yet. *)
Definition pending_protocol_world (frames : list dict) : world :=
  {| inbound := frames; outbound := [];
     ws_request := Some {| req_state := None;
                           req_protocol_state := Some State.CONNECTING |};
     calls := [] |}.

(** An accepted connection of such a server. *)
Definition open_protocol_world (frames : list dict) : world :=
  {| inbound := frames; outbound := [];
     ws_request := Some {| req_state := None;
                           req_protocol_state := Some State.OPEN |};
     calls := [] |}.

(** A connection served without a connection object: [asgi_send] is a plain
    function, not a bound method. *)
Definition bare_world (frames : list dict) : world :=
  {| inbound := frames; outbound := []; ws_request := None; calls := [] |}.

(** A message with a payload and no [type]. *)
Definition typeless_frame : dict := {[ "text" := VStr "x" ]}.

(** [c] run in [w] returns, having handed the server exactly the message [m]. *)
Definition sends (c : M value) (w : world) (m : dict) : Prop :=
  exists w', c w = Return VNone w' /\ outbound w' = (outbound w ++ [m])%list.

(** * Properties *)

Lemma py_eq_str_true (v : value) (s : string) :
  py_eq_str v s = true <-> v = VStr s.
Proof.
  destruct v as [| b | z | s' | b]; simpl; split; try discriminate.
  - intros H. apply bool_decide_eq_true in H. by subst.
  - intros [= ->]. by apply bool_decide_eq_true.
Qed.

Lemma py_eq_str_false (v : value) (s : string) :
  py_eq_str v s = false <-> v <> VStr s.
Proof.
  rewrite <- py_eq_str_true. destruct (py_eq_str v s); split; congruence.
Qed.

Lemma py_truthy_str (s : string) : s <> EmptyString -> py_truthy (VStr s) = true.
Proof. intros H. simpl. by rewrite bool_decide_eq_false_2. Qed.

Lemma py_truthy_bytes (b : list byte) : b <> [] -> py_truthy (VBytes b) = true.
Proof. intros H. simpl. by rewrite bool_decide_eq_false_2. Qed.

Section Properties.

Variable respond : WebSocketRequest -> dict -> WebSocketRequest.

(** C1: when the first inbound message carries a type other than
    ["websocket.connect"], [connect] raises a [WebSocketProtocolError] whose
    detail ends with that type and whose status code is 1002; the message is
    consumed and nothing is handed to the server. *)
Theorem connect_rejects_other_type
  (ws : WebSocket) (msg : dict) (rest : list dict) (t : value) (w : world) :
  inbound w = msg :: rest ->
  msg !! "type" = Some t ->
  t <> VStr "websocket.connect" ->
  connect respond ws w =
    Raise (ExcWebSocketProtocolError
             {| detail := "Expected websocket connection but got: " ++ py_str t;
                status_code := 1002 |})
          {| inbound := rest; outbound := outbound w;
             ws_request := ws_request w; calls := calls w ++ [CallConnect] |}.
Proof.
  intros Hin Hty Hne.
  apply py_eq_str_false in Hne.
  unfold connect, bind, record_call, asgi_receive, dict_item. simpl.
  rewrite Hin, Hty. unfold ret. rewrite Hne. simpl.
  reflexivity.
Qed.

(** C2: when the first inbound message has type ["websocket.connect"],
    [connect] returns without an error and hands the server exactly one
    message, [{'type': 'websocket.accept'}]. *)
Theorem connect_accepts
  (ws : WebSocket) (msg : dict) (rest : list dict) (w : world) :
  inbound w = msg :: rest ->
  msg !! "type" = Some (VStr "websocket.connect") ->
  connect respond ws w =
    Return VNone
      {| inbound := rest;
         outbound := outbound w ++ [ {[ "type" := VStr "websocket.accept" ]} ];
         ws_request :=
           (fun r => respond r {[ "type" := VStr "websocket.accept" ]})
             <$> ws_request w;
         calls := calls w ++ [CallConnect] |}.
Proof.
  intros Hin Hty.
  unfold connect, bind, record_call, asgi_receive, dict_item. simpl.
  by rewrite Hin, Hty.
Qed.

Lemma dict_update_lookup (d e : dict) (k : string) :
  dict_update d e !! k = match e !! k with Some v => Some v | None => d !! k end.
Proof.
  unfold dict_update. rewrite lookup_union.
  destruct (e !! k), (d !! k); reflexivity.
Qed.

Lemma send_hands_over (ws : WebSocket) (data : option value) (kwargs : dict) (w : world) :
  sends (send respond ws data kwargs) w (send_message (default VNone data) kwargs).
Proof. eexists. split; reflexivity. Qed.

Lemma close_hands_over (ws : WebSocket) (code data : option value) (w : world) :
  sends (close respond ws code data) w
    (close_message (default (VInt 1000) code) (default VNone data)).
Proof. eexists. split; reflexivity. Qed.


Lemma send_message_str (s : string) (kwargs : dict) :
  s <> EmptyString ->
  send_message (VStr s) kwargs =
    <[ "text" := VStr s ]> (dict_update {[ "type" := VStr "websocket.send" ]} kwargs).
Proof. intros H. unfold send_message. by rewrite py_truthy_str. Qed.

Lemma send_message_bytes (b : list byte) (kwargs : dict) :
  b <> [] ->
  send_message (VBytes b) kwargs =
    <[ "bytes" := VBytes b ]> (dict_update {[ "type" := VStr "websocket.send" ]} kwargs).
Proof. intros H. unfold send_message. by rewrite py_truthy_bytes. Qed.

(** A key other than [text] and [bytes] is read from the merged dictionary. *)
Lemma send_message_other_key (data : value) (kwargs : dict) (k : string) :
  k <> "text" -> k <> "bytes" ->
  send_message data kwargs !! k =
    dict_update {[ "type" := VStr "websocket.send" ]} kwargs !! k.
Proof.
  intros Ht Hb. unfold send_message.
  destruct (py_truthy data); [| done].
  destruct (isinstance_str data); [by rewrite lookup_insert_ne |].
  destruct (isinstance_bytes data); [by rewrite lookup_insert_ne | done].
Qed.


(** C4: [receive] returns the [text] field of the message it awaited when the
    message has one, else its [bytes] field when it has one, else [None]. *)
Theorem receive_text_then_bytes
  (ws : WebSocket) (msg : dict) (rest : list dict) (w : world) :
  inbound w = msg :: rest ->
  receive ws w =
    Return (match msg !! "text" with
            | Some t => t
            | None => match msg !! "bytes" with
                      | Some b => b
                      | None => VNone
                      end
            end)
           {| inbound := rest; outbound := outbound w;
              ws_request := ws_request w; calls := calls w ++ [CallReceive] |}.
Proof.
  intros Hin.
  unfold receive, bind, record_call, asgi_receive. simpl. rewrite Hin.
  unfold ret, dict_get_default, dict_get.
  by destruct (msg !! "text"), (msg !! "bytes").
Qed.

(** C5: [on_response] on a websocket scope with an open handle makes exactly
    one call, [close(data=payload)], the payload being the response's content
    ([None] without a response); with a handle that is not open, or on another
    scope, it makes no call and leaves everything as it was. *)
Theorem on_response_closes_once
  (ws : WebSocket) (response : option Response) (sc : dict) (w : world) :
  let payload := match response with Some r => content r | None => VNone end in
  (py_eq_str (dict_get sc "type") "websocket" = true ->
   is_open ws w = Return true w ->
   exists w',
     on_response respond ws response sc w = Return VNone w' /\
     close respond ws None (Some payload) w = Return VNone w' /\
     calls w' = (calls w ++ [CallClose (VInt 1000) payload])%list) /\
  (py_eq_str (dict_get sc "type") "websocket" = true ->
   is_open ws w = Return false w ->
   on_response respond ws response sc w = Return VNone w) /\
  (py_eq_str (dict_get sc "type") "websocket" = false ->
   on_response respond ws response sc w = Return VNone w).
Proof.
  intros payload. unfold on_response. repeat split.
  - intros -> Ho. unfold bind at 1. rewrite Ho.
    eexists. repeat split.
  - intros -> Ho. unfold bind. by rewrite Ho.
  - by intros ->.
Qed.

(** C6: [on_error] does what [on_response] does, on every handle, response,
    scope and world. *)
Theorem on_error_is_on_response
  (ws : WebSocket) (response : option Response) (sc : dict) (w : world) :
  on_error respond ws response sc w = on_response respond ws response sc w.
Proof. unfold on_error, on_response. reflexivity. Qed.

(** C7: when neither the handle's scope nor the scope passed to the hook has
    type ["websocket"], [on_request], [on_response] and [on_error] return with
    the world, its call history included, as it was: no [connect], no
    [close]. *)
Theorem hooks_idle_off_websocket
  (ws : WebSocket) (response : option Response) (sc : dict) (w : world) :
  py_eq_str (dict_get (scope ws) "type") "websocket" = false ->
  py_eq_str (dict_get sc "type") "websocket" = false ->
  on_request respond ws w = Return VNone w /\
  on_response respond ws response sc w = Return VNone w /\
  on_error respond ws response sc w = Return VNone w.
Proof.
  intros Hws Hsc. unfold on_request, on_response, on_error.
  by rewrite Hws, Hsc.
Qed.

Lemma close_message_type (code data : value) :
  close_message code data !! "type" = Some (VStr "websocket.disconnect").
Proof.
  unfold close_message.
  destruct (py_truthy data), (isinstance_str data), (isinstance_bytes data);
    by simplify_map_eq.
Qed.

Lemma close_message_code (code data : value) :
  close_message code data !! "code" = Some code.
Proof.
  unfold close_message.
  destruct (py_truthy data), (isinstance_str data), (isinstance_bytes data);
    by simplify_map_eq.
Qed.

(** C8: [close] hands the server exactly one message, of type
    ["websocket.disconnect"], whose [code] is the code given, 1000 when none
    is; [text] is set for a non-empty string payload, [bytes] for a non-empty
    bytes payload, neither for an empty or absent one. *)
Theorem close_sends_disconnect
  (ws : WebSocket) (code data : option value) (w : world) :
  exists m,
    sends (close respond ws code data) w m /\
    m !! "type" = Some (VStr "websocket.disconnect") /\
    (forall c, code = Some c -> m !! "code" = Some c) /\
    (code = None -> m !! "code" = Some (VInt 1000)) /\
    (forall s, data = Some (VStr s) -> s <> EmptyString ->
               m !! "text" = Some (VStr s) /\ m !! "bytes" = None) /\
    (forall b, data = Some (VBytes b) -> b <> [] ->
               m !! "bytes" = Some (VBytes b) /\ m !! "text" = None) /\
    (py_truthy (default VNone data) = false ->
     m !! "text" = None /\ m !! "bytes" = None).
Proof.
  eexists. split; [apply close_hands_over |].
  split; [apply close_message_type |].
  split; [intros c ->; apply close_message_code |].
  split; [intros ->; apply close_message_code |].
  split; [| split].
  - intros s -> Hs. unfold close_message. simpl default.
    rewrite py_truthy_str by done. by simplify_map_eq.
  - intros b -> Hb. unfold close_message. simpl default.
    rewrite py_truthy_bytes by done. by simplify_map_eq.
  - intros Hd. unfold close_message. rewrite Hd. by simplify_map_eq.
Qed.

(** C9: the exception [WebSocketClosed] builds carries the detail it is
    given, ['WebSocket has closed'] by default, and the status code 200
    whatever [status_code] it is given or defaults to: the parameter, 1000 by
    default, is not passed on. *)
Theorem WebSocketClosed_status_is_200 (d : option string) (sc : option Z) :
  WebSocketClosed d sc =
    ExcWebSocketClosed
      {| detail := default "WebSocket has closed" d; status_code := 200 |} /\
  WebSocketClosed None None =
    ExcWebSocketClosed {| detail := "WebSocket has closed"; status_code := 200 |} /\
  200 <> Status.value Status.OK.
Proof. split; [| split]; [reflexivity | reflexivity | discriminate]. Qed.

(** C10: [send] merges the extra fields first and sets the payload field
    last: an extra [type] replaces ["websocket.send"], every extra field
    other than [text] and [bytes] is carried over, and an extra [text]
    ([bytes]) gives way to a non-empty string (bytes) payload. *)
Theorem send_merges_extra_fields
  (ws : WebSocket) (data : option value) (kwargs : dict) (w : world) :
  exists m,
    sends (send respond ws data kwargs) w m /\
    (forall t, kwargs !! "type" = Some t -> m !! "type" = Some t) /\
    (kwargs !! "type" = None -> m !! "type" = Some (VStr "websocket.send")) /\
    (forall k v, k <> "text" -> k <> "bytes" ->
                 kwargs !! k = Some v -> m !! k = Some v) /\
    (forall s, data = Some (VStr s) -> s <> EmptyString ->
               m !! "text" = Some (VStr s)) /\
    (forall b, data = Some (VBytes b) -> b <> [] ->
               m !! "bytes" = Some (VBytes b)).
Proof.
  eexists. split; [apply send_hands_over |].
  split; [| split; [| split; [| split]]].
  - intros t Ht. rewrite send_message_other_key by done.
    by rewrite dict_update_lookup, Ht.
  - intros Ht. rewrite send_message_other_key by done.
    by rewrite dict_update_lookup, Ht.
  - intros k v Hk1 Hk2 Hk. rewrite send_message_other_key by done.
    by rewrite dict_update_lookup, Hk.
  - intros s -> Hs. simpl default. rewrite send_message_str by done.
    apply lookup_insert_eq.
  - intros b -> Hb. simpl default. rewrite send_message_bytes by done.
    apply lookup_insert_eq.
Qed.

End Properties.

(** * The properties at concrete connections *)

(** The scenario of a connect frame followed by a text frame: [connect]
    succeeds, the accept message goes out, [receive] returns ["hi"]. *)
Example scenario_connect_then_receive :
  (connect test_respond (resolve websocket_scope) ;;; receive (resolve websocket_scope))
    (pending_world [connect_frame; hi_frame]) =
  Return (VStr "hi")
    {| inbound := [];
       outbound := [ {[ "type" := VStr "websocket.accept" ]} ];
       ws_request := Some {| req_state := Some State.OPEN;
                             req_protocol_state := None |};
       calls := [CallConnect; CallReceive] |}.
Proof. vm_compute. reflexivity. Qed.

(** A first frame that is not a connect frame: [connect] fails and names
    the type it met. *)
Example scenario_no_connect_frame :
  connect test_respond (resolve websocket_scope) (pending_world [x_frame]) =
  Raise (WebSocketProtocolError
           (Some "Expected websocket connection but got: websocket.send") None)
        {| inbound := []; outbound := [];
           ws_request := Some {| req_state := Some State.CONNECTING;
                                 req_protocol_state := None |};
           calls := [CallConnect] |}.
Proof. vm_compute. reflexivity. Qed.

(** A first message without a [type] key: [msg['type']] raises [KeyError]. *)
Example connect_without_type :
  connect test_respond (resolve websocket_scope)
    (pending_world [ {[ "text" := VStr "x" ]} ]) =
  Raise (ExcKeyError "type")
        {| inbound := []; outbound := [];
           ws_request := Some {| req_state := Some State.CONNECTING;
                                 req_protocol_state := None |};
           calls := [CallConnect] |}.
Proof. vm_compute. reflexivity. Qed.

(** With no inbound message [connect] and [receive] wait. *)
Example connect_waits :
  connect test_respond (resolve websocket_scope) (pending_world []) = Blocked /\
  receive (resolve websocket_scope) (open_world []) = Blocked.
Proof. split; reflexivity. Qed.

(** A handler that fails on a connection the server has already closed:
    [on_error] makes no call. *)
Example on_error_after_closure :
  on_error test_respond (resolve websocket_scope)
    (Some {| content := VBytes [x62; x79; x65] |}) websocket_scope (closed_world [])
  = Return VNone (closed_world []).
Proof. vm_compute. reflexivity. Qed.

(** Without a connection object the open check itself raises. *)
Example on_response_without_connection_object :
  on_response test_respond (resolve websocket_scope) None websocket_scope
    {| inbound := []; outbound := []; ws_request := None; calls := [] |}
  = Raise ExcAttributeError
      {| inbound := []; outbound := []; ws_request := None; calls := [] |}.
Proof. vm_compute. reflexivity. Qed.

(** A message with both keys, [text] being [None]: the [text] value wins. *)
Example receive_text_none :
  receive (resolve websocket_scope)
    (open_world [ <[ "text" := VNone ]> {[ "bytes" := VBytes [x78] ]} ]) =
  Return VNone
    {| inbound := []; outbound := [];
       ws_request := Some {| req_state := Some State.OPEN;
                             req_protocol_state := None |};
       calls := [CallReceive] |}.
Proof. vm_compute. reflexivity. Qed.

Lemma connect_rejects_other_type_witness :
  inbound (pending_world [x_frame]) = [x_frame] /\
  x_frame !! "type" = Some (VStr "websocket.send") /\
  VStr "websocket.send" <> VStr "websocket.connect" /\
  connect test_respond (resolve websocket_scope) (pending_world [x_frame]) =
    Raise (ExcWebSocketProtocolError
             {| detail := "Expected websocket connection but got: websocket.send";
                status_code := 1002 |})
          {| inbound := []; outbound := [];
             ws_request := ws_request (pending_world [x_frame]);
             calls := [CallConnect] |}.
Proof.
  assert (H1 : inbound (pending_world [x_frame]) = [x_frame]) by reflexivity.
  assert (H2 : x_frame !! "type" = Some (VStr "websocket.send"))
    by (vm_compute; reflexivity).
  assert (H3 : VStr "websocket.send" <> VStr "websocket.connect") by discriminate.
  split; [exact H1 |]. split; [exact H2 |]. split; [exact H3 |].
  exact (connect_rejects_other_type test_respond (resolve websocket_scope)
           x_frame [] (VStr "websocket.send") (pending_world [x_frame]) H1 H2 H3).
Defined.

Lemma connect_accepts_witness :
  inbound (pending_world [connect_frame; hi_frame]) = connect_frame :: [hi_frame] /\
  connect_frame !! "type" = Some (VStr "websocket.connect") /\
  connect test_respond (resolve websocket_scope)
    (pending_world [connect_frame; hi_frame]) =
    Return VNone
      {| inbound := [hi_frame];
         outbound := [ {[ "type" := VStr "websocket.accept" ]} ];
         ws_request := Some {| req_state := Some State.OPEN;
                               req_protocol_state := None |};
         calls := [CallConnect] |}.
Proof.
  assert (H1 : inbound (pending_world [connect_frame; hi_frame])
               = connect_frame :: [hi_frame]) by reflexivity.
  assert (H2 : connect_frame !! "type" = Some (VStr "websocket.connect"))
    by (vm_compute; reflexivity).
  split; [exact H1 |]. split; [exact H2 |].
  rewrite (connect_accepts test_respond (resolve websocket_scope)
             connect_frame [hi_frame] _ H1 H2).
  vm_compute. reflexivity.
Defined.



Lemma receive_text_then_bytes_witness :
  inbound (open_world [hi_frame]) = [hi_frame] /\
  receive (resolve websocket_scope) (open_world [hi_frame]) =
    Return (VStr "hi")
      {| inbound := []; outbound := [];
         ws_request := ws_request (open_world [hi_frame]);
         calls := [CallReceive] |}.
Proof.
  assert (H1 : inbound (open_world [hi_frame]) = [hi_frame]) by reflexivity.
  split; [exact H1 |].
  rewrite (receive_text_then_bytes (resolve websocket_scope) hi_frame [] _ H1).
  vm_compute. reflexivity.
Defined.

Lemma on_response_closes_once_witness :
  py_eq_str (dict_get websocket_scope "type") "websocket" = true /\
  is_open (resolve websocket_scope) (open_world []) = Return true (open_world []) /\
  exists w',
    on_response test_respond (resolve websocket_scope)
      (Some {| content := VBytes [x62; x79; x65] |}) websocket_scope (open_world [])
      = Return VNone w' /\
    close test_respond (resolve websocket_scope) None
      (Some (VBytes [x62; x79; x65])) (open_world []) = Return VNone w' /\
    calls w' = [CallClose (VInt 1000) (VBytes [x62; x79; x65])].
Proof.
  assert (H1 : py_eq_str (dict_get websocket_scope "type") "websocket" = true)
    by (vm_compute; reflexivity).
  assert (H2 : is_open (resolve websocket_scope) (open_world [])
               = Return true (open_world [])) by reflexivity.
  split; [exact H1 |]. split; [exact H2 |].
  exact (proj1 (on_response_closes_once test_respond (resolve websocket_scope)
                  (Some {| content := VBytes [x62; x79; x65] |})
                  websocket_scope (open_world [])) H1 H2).
Defined.

Lemma hooks_idle_off_websocket_witness :
  py_eq_str (dict_get (scope (resolve http_scope)) "type") "websocket" = false /\
  py_eq_str (dict_get http_scope "type") "websocket" = false /\
  on_request test_respond (resolve http_scope) (open_world [connect_frame])
    = Return VNone (open_world [connect_frame]) /\
  on_response test_respond (resolve http_scope)
    (Some {| content := VBytes [x62; x79; x65] |}) http_scope
    (open_world [connect_frame])
    = Return VNone (open_world [connect_frame]) /\
  on_error test_respond (resolve http_scope)
    (Some {| content := VBytes [x62; x79; x65] |}) http_scope
    (open_world [connect_frame])
    = Return VNone (open_world [connect_frame]).
Proof.
  assert (H1 : py_eq_str (dict_get (scope (resolve http_scope)) "type") "websocket"
               = false) by (vm_compute; reflexivity).
  assert (H2 : py_eq_str (dict_get http_scope "type") "websocket" = false)
    by (vm_compute; reflexivity).
  split; [exact H1 |]. split; [exact H2 |].
  exact (hooks_idle_off_websocket test_respond (resolve http_scope)
           (Some {| content := VBytes [x62; x79; x65] |}) http_scope
           (open_world [connect_frame]) H1 H2).
Defined.

Lemma close_sends_disconnect_witness :
  exists m,
    sends (close test_respond (resolve websocket_scope) (Some (VInt 1001))
             (Some (VStr "bye")))
          (open_world []) m /\
    m !! "type" = Some (VStr "websocket.disconnect") /\
    m !! "code" = Some (VInt 1001) /\
    m !! "text" = Some (VStr "bye") /\
    m !! "bytes" = None.
Proof.
  destruct (close_sends_disconnect test_respond (resolve websocket_scope)
              (Some (VInt 1001)) (Some (VStr "bye")) (open_world []))
    as (m & Hsends & Hty & Hcode & _ & Hstr & _).
  assert (Hs : "bye" <> EmptyString) by discriminate.
  exists m.
  split; [exact Hsends |]. split; [exact Hty |].
  split; [exact (Hcode (VInt 1001) eq_refl) |].
  exact (Hstr "bye" eq_refl Hs).
Defined.

Lemma send_merges_extra_fields_witness :
  exists m,
    sends (send test_respond (resolve websocket_scope) (Some (VStr "hi"))
             (<[ "type" := VStr "websocket.http.response" ]>
                {[ "text" := VStr "old" ]}))
          (open_world []) m /\
    m !! "type" = Some (VStr "websocket.http.response") /\
    m !! "text" = Some (VStr "hi").
Proof.
  destruct (send_merges_extra_fields test_respond (resolve websocket_scope)
              (Some (VStr "hi"))
              (<[ "type" := VStr "websocket.http.response" ]>
                 {[ "text" := VStr "old" ]})
              (open_world []))
    as (m & Hsends & Hty & _ & _ & Hstr & _).
  assert (Hk : (<[ "type" := VStr "websocket.http.response" ]>
                  {[ "text" := VStr "old" ]} : dict) !! "type"
               = Some (VStr "websocket.http.response"))
    by (vm_compute; reflexivity).
  assert (Hs : "hi" <> EmptyString) by discriminate.
  exists m.
  split; [exact Hsends |].
  split; [exact (Hty _ Hk) |].
  exact (Hstr "hi" eq_refl Hs).
Defined.

(** * The rest of the module: status table, open check, error paths,
      composition *)

(** X1: the status table gives each member a code of its own, between 1000
    and 1010. *)
Theorem Status_value_injective_in_range (a b : Status.t) :
  (Status.value a = Status.value b -> a = b) /\
  1000 <= Status.value a <= 1010.
Proof.
  split.
  - destruct a, b; simpl; intros H; try reflexivity; discriminate H.
  - destruct a; simpl; lia.
Qed.

Lemma Status_value_injective_in_range_witness :
  Status.value Status.PROT_ERROR = Status.value Status.PROT_ERROR /\
  Status.PROT_ERROR = Status.PROT_ERROR.
Proof.
  assert (H : Status.value Status.PROT_ERROR = Status.value Status.PROT_ERROR)
    by reflexivity.
  split; [exact H |].
  exact (proj1 (Status_value_injective_in_range Status.PROT_ERROR Status.PROT_ERROR) H).
Defined.

(** X2: [is_open] is [True] exactly when the connection object's own [state]
    is [OPEN], or it has no [state] and its [protocol.state] is [OPEN]; a
    [state] of its own hides the one of [protocol].  In no case does the check
    change anything. *)
Theorem is_open_true_iff (ws : WebSocket) (w : world) :
  (is_open ws w = Return true w <->
   exists r, ws_request w = Some r /\
             (req_state r = Some State.OPEN \/
              (req_state r = None /\ req_protocol_state r = Some State.OPEN))) /\
  (forall b w', is_open ws w = Return b w' -> w' = w) /\
  (forall e w', is_open ws w = Raise e w' -> e = ExcAttributeError /\ w' = w) /\
  is_open ws w <> Blocked.
Proof.
  unfold is_open, bind, state, ret.
  destruct (ws_request w) as [r |].
  - destruct (req_state r) as [s |] eqn:Es;
      [| destruct (req_protocol_state r) as [s |] eqn:Ep].
    + repeat split; try congruence.
      * intros H. exists r. split; [done |]. left. destruct s; congruence.
      * intros (r' & [= <-] & [H | [H _]]); [| congruence].
        rewrite Es in H. by injection H as ->.
    + repeat split; try congruence.
      * intros H. exists r. split; [done |]. right. destruct s; done || congruence.
      * intros (r' & [= <-] & [H | [_ H]]); [congruence |].
        rewrite Ep in H. by injection H as ->.
    + repeat split; try congruence.
      intros (r' & [= <-] & [H | [_ H]]); congruence.
  - repeat split; try congruence.
    intros (r' & ? & _). congruence.
Qed.

Lemma is_open_true_iff_witness :
  is_open (resolve websocket_scope) (open_world []) = Return true (open_world []).
Proof.
  apply (proj2 (proj1 (is_open_true_iff (resolve websocket_scope) (open_world [])))).
  exists {| req_state := Some State.OPEN; req_protocol_state := None |}.
  split; [reflexivity |]. left. reflexivity.
Defined.

Section MoreProperties.

Variable respond : WebSocketRequest -> dict -> WebSocketRequest.

(** [connect], case by case. *)
Lemma connect_cases (ws : WebSocket) (w : world) :
  connect respond ws w =
    match inbound w with
    | [] => Blocked
    | msg :: rest =>
        let w1 := {| inbound := rest; outbound := outbound w;
                     ws_request := ws_request w;
                     calls := calls w ++ [CallConnect] |} in
        match msg !! "type" with
        | None => Raise (ExcKeyError "type") w1
        | Some t =>
            if py_eq_str t "websocket.connect" then
              Return VNone
                {| inbound := rest;
                   outbound := outbound w ++ [ {[ "type" := VStr "websocket.accept" ]} ];
                   ws_request :=
                     (fun r => respond r {[ "type" := VStr "websocket.accept" ]})
                       <$> ws_request w;
                   calls := calls w ++ [CallConnect] |}
            else
              Raise (ExcWebSocketProtocolError
                       {| detail := "Expected websocket connection but got: "
                                    ++ py_str t;
                          status_code := 1002 |}) w1
        end
    end.
Proof.
  unfold connect, bind, record_call, asgi_receive, dict_item. simpl.
  destruct (inbound w) as [| msg rest]; [reflexivity |].
  destruct (msg !! "type") as [t |] eqn:Et; [| reflexivity].
  unfold ret. destruct (py_eq_str t "websocket.connect"); simpl; [reflexivity |].
  reflexivity.
Qed.

(** X3: on a websocket scope, when [asgi_send] gave no connection object (or
    the object has neither [state] nor [protocol.state]), [on_response] and
    [on_error] raise [AttributeError] from the open check: no [close] call is
    made and nothing is handed to the server. *)
Theorem hooks_raise_without_state
  (ws : WebSocket) (response : option Response) (sc : dict) (w : world) :
  py_eq_str (dict_get sc "type") "websocket" = true ->
  (ws_request w = None \/
   exists r, ws_request w = Some r /\
             req_state r = None /\ req_protocol_state r = None) ->
  on_response respond ws response sc w = Raise ExcAttributeError w /\
  on_error respond ws response sc w = Raise ExcAttributeError w.
Proof.
  intros Hsc Hreq.
  unfold on_response, on_error. rewrite Hsc.
  unfold bind at 1 3. unfold is_open, bind, state.
  destruct Hreq as [-> | (r & -> & -> & ->)]; split; reflexivity.
Qed.

(** X4: when the first inbound message has no [type] key, [connect] raises
    [KeyError('type')]; the message is consumed and nothing is handed to the
    server. *)
Theorem connect_missing_type
  (ws : WebSocket) (msg : dict) (rest : list dict) (w : world) :
  inbound w = msg :: rest ->
  msg !! "type" = None ->
  connect respond ws w =
    Raise (ExcKeyError "type")
          {| inbound := rest; outbound := outbound w;
             ws_request := ws_request w; calls := calls w ++ [CallConnect] |}.
Proof.
  intros Hin Hty. rewrite connect_cases, Hin. simpl. by rewrite Hty.
Qed.

(** A payload that is not a non-empty [str] or [bytes] leaves the message as
    it was before the payload test. *)
Lemma send_message_ignored (d : value) (kwargs : dict) :
  (forall s, d = VStr s -> s = EmptyString) ->
  (forall b, d = VBytes b -> b = []) ->
  send_message d kwargs = dict_update {[ "type" := VStr "websocket.send" ]} kwargs.
Proof.
  intros Hs Hb. unfold send_message.
  destruct d as [| bo | z | s | b]; simpl.
  - reflexivity.
  - by destruct bo.
  - by destruct (negb (z =? 0)).
  - by rewrite (Hs s eq_refl).
  - by rewrite (Hb b eq_refl).
Qed.

Lemma close_message_ignored (code d : value) :
  (forall s, d = VStr s -> s = EmptyString) ->
  (forall b, d = VBytes b -> b = []) ->
  close_message code d =
    <[ "type" := VStr "websocket.disconnect" ]> (<[ "code" := code ]> ∅).
Proof.
  intros Hs Hb. unfold close_message.
  destruct d as [| bo | z | s | b]; simpl.
  - reflexivity.
  - by destruct bo.
  - by destruct (negb (z =? 0)).
  - by rewrite (Hs s eq_refl).
  - by rewrite (Hb b eq_refl).
Qed.

(** X7: a payload that is neither a non-empty [str] nor a non-empty [bytes]
    (a number, [True], an empty string) is dropped without an error: [send]
    and [close] hand over the message they hand over with no payload at
    all. *)
Theorem other_payloads_are_dropped
  (ws : WebSocket) (d : value) (code : option value) (kwargs : dict) (w : world) :
  (forall s, d = VStr s -> s = EmptyString) ->
  (forall b, d = VBytes b -> b = []) ->
  (exists m, sends (send respond ws (Some d) kwargs) w m /\
             sends (send respond ws None kwargs) w m /\
             m !! "text" = kwargs !! "text" /\ m !! "bytes" = kwargs !! "bytes") /\
  (exists m, sends (close respond ws code (Some d)) w m /\
             sends (close respond ws code None) w m /\
             m !! "text" = None /\ m !! "bytes" = None).
Proof.
  intros Hs Hb. split.
  - exists (dict_update {[ "type" := VStr "websocket.send" ]} kwargs).
    split; [| split; [| split]].
    + rewrite <- (send_message_ignored d kwargs Hs Hb). by eexists.
    + by eexists.
    + rewrite dict_update_lookup. by destruct (kwargs !! "text").
    + rewrite dict_update_lookup. by destruct (kwargs !! "bytes").
  - exists (<[ "type" := VStr "websocket.disconnect" ]>
              (<[ "code" := default (VInt 1000) code ]> ∅)).
    split; [| split; [| split]].
    + rewrite <- (close_message_ignored _ d Hs Hb). by eexists.
    + by eexists.
    + by simplify_map_eq.
    + by simplify_map_eq.
Qed.

(** X8: the message [close] hands over has no field besides [type], [code],
    [text] and [bytes], and never both [text] and [bytes]. *)
Theorem close_message_fields
  (ws : WebSocket) (code data : option value) (w : world) :
  exists m,
    sends (close respond ws code data) w m /\
    (forall k, k <> "type" -> k <> "code" -> k <> "text" -> k <> "bytes" ->
               m !! k = None) /\
    (m !! "text" = None \/ m !! "bytes" = None).
Proof.
  eexists. split; [apply close_hands_over |].
  unfold close_message.
  destruct (py_truthy (default VNone data)),
           (isinstance_str (default VNone data)),
           (isinstance_bytes (default VNone data));
    (split; [intros k ? ? ? ?; by simplify_map_eq |]);
    first [by left; simplify_map_eq | by right; simplify_map_eq].
Qed.

(** X9: on a websocket scope [on_request] is [connect]: same result, same
    messages, same exception when the first message is not a connect
    message or has no type, same wait when there is no message. *)
Theorem on_request_is_connect (ws : WebSocket) (w : world) :
  py_eq_str (dict_get (scope ws) "type") "websocket" = true ->
  on_request respond ws w = connect respond ws w.
Proof.
  intros Hsc. unfold on_request. rewrite Hsc.
  unfold bind at 1. rewrite connect_cases.
  destruct (inbound w) as [| msg rest]; [reflexivity |]. simpl.
  destruct (msg !! "type") as [t |]; [| reflexivity].
  by destruct (py_eq_str t "websocket.connect").
Qed.

(** X10: the hook around a handler that does nothing.  On a websocket scope,
    with a connect message first and a handle that reports open once the
    server has the accept message, [on_request] followed by [on_response]
    hands over the accept message and then one disconnect message with code
    1000 built from the response's content, and takes one inbound message. *)
Theorem hook_accepts_then_closes
  (ws : WebSocket) (response : option Response)
  (msg : dict) (rest : list dict) (w : world) :
  let accept : dict := {[ "type" := VStr "websocket.accept" ]} in
  let payload := match response with Some p => content p | None => VNone end in
  let bye := close_message (VInt 1000) payload in
  let accepted :=
    {| inbound := rest; outbound := outbound w ++ [accept];
       ws_request := (fun r => respond r accept) <$> ws_request w;
       calls := calls w ++ [CallConnect] |} in
  py_eq_str (dict_get (scope ws) "type") "websocket" = true ->
  inbound w = msg :: rest ->
  msg !! "type" = Some (VStr "websocket.connect") ->
  is_open ws accepted = Return true accepted ->
  (on_request respond ws ;;; on_response respond ws response (scope ws)) w =
    Return VNone
      {| inbound := rest;
         outbound := (outbound w ++ [accept]) ++ [bye];
         ws_request :=
           (fun r => respond r bye) <$> ((fun r => respond r accept) <$> ws_request w);
         calls := (calls w ++ [CallConnect]) ++ [CallClose (VInt 1000) payload] |}.
Proof.
  intros accept payload bye accepted Hsc Hin Hty Hopen.
  unfold bind at 1. unfold on_request. rewrite Hsc.
  unfold bind at 1. rewrite connect_cases, Hin. simpl. rewrite Hty.
  rewrite (proj2 (py_eq_str_true _ _) eq_refl). unfold ret at 1.
  unfold on_response. rewrite Hsc.
  unfold bind at 1. fold accept. fold accepted. rewrite Hopen.
  reflexivity.
Qed.

(** X11: when the handle reports open before the disconnect message and not
    open once the server has it, the hook does not close a second time:
    [on_error] run after [on_response] adds nothing to it. *)
Theorem hook_closes_only_once
  (ws : WebSocket) (response response' : option Response) (sc : dict) (w : world) :
  let payload := match response with Some p => content p | None => VNone end in
  let bye := close_message (VInt 1000) payload in
  let closed :=
    {| inbound := inbound w; outbound := outbound w ++ [bye];
       ws_request := (fun r => respond r bye) <$> ws_request w;
       calls := calls w ++ [CallClose (VInt 1000) payload] |} in
  py_eq_str (dict_get sc "type") "websocket" = true ->
  is_open ws w = Return true w ->
  is_open ws closed = Return false closed ->
  (on_response respond ws response sc ;;; on_error respond ws response' sc) w =
    on_response respond ws response sc w /\
  on_response respond ws response sc w = Return VNone closed /\
  sends (on_response respond ws response sc ;;; on_error respond ws response' sc) w bye.
Proof.
  intros payload bye closed Hsc Hopen Hafter.
  assert (Hfirst : on_response respond ws response sc w = Return VNone closed).
  { unfold on_response. rewrite Hsc.
    unfold bind at 1. rewrite Hopen. reflexivity. }
  assert (Hboth : (on_response respond ws response sc ;;;
                   on_error respond ws response' sc) w =
                  on_response respond ws response sc w).
  { unfold bind at 1. rewrite Hfirst.
    unfold on_error. rewrite Hsc.
    unfold bind at 1. by rewrite Hafter. }
  split; [exact Hboth |]. split; [exact Hfirst |].
  unfold sends. rewrite Hboth, Hfirst. by eexists.
Qed.

(** X12: after a successful [connect], [receive] returns the payload of the
    second inbound message: its [text] field when it has one, else its
    [bytes] field, else [None]; one accept message has gone out. *)
Theorem connect_then_receive
  (ws : WebSocket) (c msg : dict) (rest : list dict) (w : world) :
  inbound w = c :: msg :: rest ->
  c !! "type" = Some (VStr "websocket.connect") ->
  (connect respond ws ;;; receive ws) w =
    Return (match msg !! "text" with
            | Some t => t
            | None => match msg !! "bytes" with
                      | Some b => b
                      | None => VNone
                      end
            end)
      {| inbound := rest;
         outbound := outbound w ++ [ {[ "type" := VStr "websocket.accept" ]} ];
         ws_request :=
           (fun r => respond r {[ "type" := VStr "websocket.accept" ]})
             <$> ws_request w;
         calls := (calls w ++ [CallConnect]) ++ [CallReceive] |}.
Proof.
  intros Hin Hty.
  unfold bind at 1. rewrite connect_cases, Hin. simpl. rewrite Hty.
  rewrite (proj2 (py_eq_str_true _ _) eq_refl).
  unfold receive, bind, record_call, asgi_receive, ret. simpl.
  unfold dict_get_default, dict_get.
  by destruct (msg !! "text"), (msg !! "bytes").
Qed.

(** X14: a connection the hook has refused is not closed by the hook.  When
    [on_request] fails on a first message that is not a connect message and
    the server does not report the connection open, [on_error] run in the
    world the failure left hands the server nothing. *)
Theorem refused_connection_is_not_closed
  (ws : WebSocket) (response : option Response) (sc : dict)
  (msg : dict) (rest : list dict) (t : value) (w : world) :
  py_eq_str (dict_get (scope ws) "type") "websocket" = true ->
  inbound w = msg :: rest ->
  msg !! "type" = Some t ->
  t <> VStr "websocket.connect" ->
  is_open ws w = Return false w ->
  exists e w1,
    on_request respond ws w = Raise e w1 /\
    outbound w1 = outbound w /\
    on_error respond ws response sc w1 = Return VNone w1.
Proof.
  intros Hsc Hin Hty Hne Hopen.
  apply py_eq_str_false in Hne.
  unfold on_request. rewrite Hsc.
  unfold bind at 1. rewrite connect_cases, Hin. simpl.
  rewrite Hty, Hne.
  eexists. eexists. split; [reflexivity |]. split; [reflexivity |].
  unfold on_error.
  destruct (py_eq_str (dict_get sc "type") "websocket"); [| reflexivity].
  unfold bind at 1.
  revert Hopen. unfold is_open, bind, state, ret. simpl.
  destruct (ws_request w) as [r |]; [| discriminate].
  destruct (req_state r) as [s |];
    [| destruct (req_protocol_state r) as [s |]; [| discriminate]];
    destruct s; intros [=]; reflexivity.
Qed.

End MoreProperties.

(** * The further properties at concrete connections *)

Lemma hooks_raise_without_state_witness :
  py_eq_str (dict_get websocket_scope "type") "websocket" = true /\
  ws_request (bare_world []) = None /\
  on_response test_respond (resolve websocket_scope) None websocket_scope
    (bare_world []) = Raise ExcAttributeError (bare_world []) /\
  on_error test_respond (resolve websocket_scope) None websocket_scope
    (bare_world []) = Raise ExcAttributeError (bare_world []).
Proof.
  assert (H1 : py_eq_str (dict_get websocket_scope "type") "websocket" = true)
    by (vm_compute; reflexivity).
  assert (H2 : ws_request (bare_world []) = None) by reflexivity.
  split; [exact H1 |]. split; [exact H2 |].
  exact (hooks_raise_without_state test_respond (resolve websocket_scope) None
           websocket_scope (bare_world []) H1 (or_introl H2)).
Defined.

Lemma connect_missing_type_witness :
  inbound (pending_world [typeless_frame]) = [typeless_frame] /\
  typeless_frame !! "type" = None /\
  connect test_respond (resolve websocket_scope) (pending_world [typeless_frame]) =
    Raise (ExcKeyError "type")
          {| inbound := []; outbound := [];
             ws_request := ws_request (pending_world [typeless_frame]);
             calls := [CallConnect] |}.
Proof.
  assert (H1 : inbound (pending_world [typeless_frame]) = [typeless_frame])
    by reflexivity.
  assert (H2 : typeless_frame !! "type" = None) by (vm_compute; reflexivity).
  split; [exact H1 |]. split; [exact H2 |].
  exact (connect_missing_type test_respond (resolve websocket_scope)
           typeless_frame [] (pending_world [typeless_frame]) H1 H2).
Defined.

Lemma other_payloads_are_dropped_witness :
  exists m,
    sends (send test_respond (resolve websocket_scope) (Some (VInt 5)) ∅)
          (open_world []) m /\
    sends (send test_respond (resolve websocket_scope) None ∅) (open_world []) m /\
    m !! "text" = (∅ : dict) !! "text" /\ m !! "bytes" = (∅ : dict) !! "bytes".
Proof.
  assert (Hs : forall s, VInt 5 = VStr s -> s = EmptyString) by discriminate.
  assert (Hb : forall b : list byte, VInt 5 = VBytes b -> b = []) by discriminate.
  exact (proj1 (other_payloads_are_dropped test_respond (resolve websocket_scope)
                  (VInt 5) None ∅ (open_world []) Hs Hb)).
Defined.

Lemma close_message_fields_witness :
  exists m,
    sends (close test_respond (resolve websocket_scope) None (Some (VStr "bye")))
          (open_world []) m /\
    m !! "reason" = None.
Proof.
  destruct (close_message_fields test_respond (resolve websocket_scope) None
              (Some (VStr "bye")) (open_world [])) as (m & Hsends & Hk & _).
  exists m. split; [exact Hsends |].
  apply Hk; discriminate.
Defined.

Lemma on_request_is_connect_witness :
  py_eq_str (dict_get (scope (resolve websocket_scope)) "type") "websocket" = true /\
  on_request test_respond (resolve websocket_scope) (pending_world [x_frame]) =
    connect test_respond (resolve websocket_scope) (pending_world [x_frame]).
Proof.
  assert (H : py_eq_str (dict_get (scope (resolve websocket_scope)) "type")
                "websocket" = true) by (vm_compute; reflexivity).
  split; [exact H |].
  exact (on_request_is_connect test_respond (resolve websocket_scope)
           (pending_world [x_frame]) H).
Defined.

Lemma hook_accepts_then_closes_witness :
  exists w',
    (on_request test_respond_protocol (resolve websocket_scope) ;;;
     on_response test_respond_protocol (resolve websocket_scope)
       (Some {| content := VBytes [x62; x79; x65] |})
       (scope (resolve websocket_scope)))
      (pending_protocol_world [connect_frame]) = Return VNone w' /\
    length (outbound w') = 2%nat /\
    ws_request w' = Some {| req_state := None;
                            req_protocol_state := Some State.CLOSED |} /\
    calls w' = [CallConnect; CallClose (VInt 1000) (VBytes [x62; x79; x65])].
Proof.
  assert (H1 : py_eq_str (dict_get (scope (resolve websocket_scope)) "type")
                 "websocket" = true) by (vm_compute; reflexivity).
  assert (H2 : inbound (pending_protocol_world [connect_frame]) = connect_frame :: [])
    by reflexivity.
  assert (H3 : connect_frame !! "type" = Some (VStr "websocket.connect"))
    by (vm_compute; reflexivity).
  pose (accepted :=
    {| inbound := [];
       outbound := outbound (pending_protocol_world [connect_frame])
                   ++ [ {[ "type" := VStr "websocket.accept" ]} ];
       ws_request :=
         (fun r => test_respond_protocol r {[ "type" := VStr "websocket.accept" ]})
           <$> ws_request (pending_protocol_world [connect_frame]);
       calls := calls (pending_protocol_world [connect_frame]) ++ [CallConnect] |}).
  assert (H4 : is_open (resolve websocket_scope) accepted = Return true accepted)
    by (vm_compute; reflexivity).
  eexists. split.
  - exact (hook_accepts_then_closes test_respond_protocol (resolve websocket_scope)
             (Some {| content := VBytes [x62; x79; x65] |})
             connect_frame [] (pending_protocol_world [connect_frame])
             H1 H2 H3 H4).
  - split; [reflexivity |]. split; [vm_compute; reflexivity | reflexivity].
Defined.

Lemma hook_closes_only_once_witness :
  (on_response test_respond_protocol (resolve websocket_scope) None websocket_scope ;;;
   on_error test_respond_protocol (resolve websocket_scope) None websocket_scope)
    (open_protocol_world []) =
  on_response test_respond_protocol (resolve websocket_scope) None websocket_scope
    (open_protocol_world []).
Proof.
  assert (H1 : py_eq_str (dict_get websocket_scope "type") "websocket" = true)
    by (vm_compute; reflexivity).
  assert (H2 : is_open (resolve websocket_scope) (open_protocol_world [])
               = Return true (open_protocol_world [])) by reflexivity.
  pose (closed :=
    {| inbound := inbound (open_protocol_world []);
       outbound := outbound (open_protocol_world [])
                   ++ [close_message (VInt 1000) VNone];
       ws_request :=
         (fun r => test_respond_protocol r (close_message (VInt 1000) VNone))
           <$> ws_request (open_protocol_world []);
       calls := calls (open_protocol_world [])
                ++ [CallClose (VInt 1000) VNone] |}).
  assert (H3 : is_open (resolve websocket_scope) closed = Return false closed)
    by (vm_compute; reflexivity).
  exact (proj1 (hook_closes_only_once test_respond_protocol
                  (resolve websocket_scope) None None websocket_scope
                  (open_protocol_world []) H1 H2 H3)).
Defined.

Lemma connect_then_receive_witness :
  exists w',
    (connect test_respond (resolve websocket_scope) ;;;
     receive (resolve websocket_scope))
      (pending_world [connect_frame; hi_frame]) = Return (VStr "hi") w' /\
    inbound w' = [].
Proof.
  assert (H1 : inbound (pending_world [connect_frame; hi_frame])
               = connect_frame :: hi_frame :: []) by reflexivity.
  assert (H2 : connect_frame !! "type" = Some (VStr "websocket.connect"))
    by (vm_compute; reflexivity).
  eexists. split.
  - rewrite (connect_then_receive test_respond (resolve websocket_scope)
               connect_frame hi_frame [] _ H1 H2).
    vm_compute. reflexivity.
  - reflexivity.
Defined.

Lemma refused_connection_is_not_closed_witness :
  exists e w1,
    on_request test_respond (resolve websocket_scope) (pending_world [x_frame])
      = Raise e w1 /\
    outbound w1 = outbound (pending_world [x_frame]) /\
    on_error test_respond (resolve websocket_scope) None websocket_scope w1
      = Return VNone w1.
Proof.
  assert (H1 : py_eq_str (dict_get (scope (resolve websocket_scope)) "type")
                 "websocket" = true) by (vm_compute; reflexivity).
  assert (H2 : inbound (pending_world [x_frame]) = x_frame :: []) by reflexivity.
  assert (H3 : x_frame !! "type" = Some (VStr "websocket.send"))
    by (vm_compute; reflexivity).
  assert (H4 : VStr "websocket.send" <> VStr "websocket.connect") by discriminate.
  assert (H5 : is_open (resolve websocket_scope) (pending_world [x_frame])
               = Return false (pending_world [x_frame])) by reflexivity.
  exact (refused_connection_is_not_closed test_respond (resolve websocket_scope)
           None websocket_scope x_frame [] (VStr "websocket.send")
           (pending_world [x_frame]) H1 H2 H3 H4 H5).
Defined.
